(** * The embedding gateway of [python_backend/main.py]

    A shallow embedding of the single endpoint [POST /embed]: the request
    model [EmbedRequest], the handler [embed], the module-level objects
    [hf_model] and [claude_client], and the two collaborators the handler
    talks to (the [SentenceTransformer] constructor and its [encode]
    method).  The collaborators are an interface: the handler is verified
    against every implementation of it. *)

From Stdlib Require Import String Ascii List ZArith Bool Lia.
From Stdlib Require Import SpecFloat.
Import ListNotations.
Open Scope string_scope.
Open Scope list_scope.

(** ** Data *)

(** [Literal['huggingface', 'openai', 'claude']]. *)
Inductive Provider : Type := huggingface | openai | claude.

Definition provider_value (p : Provider) : string :=
  match p with
  | huggingface => "huggingface"
  | openai => "openai"
  | claude => "claude"
  end.

Definition provider_literals : list string :=
  ["huggingface"; "openai"; "claude"].

(** A Python float is an IEEE-754 value; [SpecFloat] gives its shape
    (zero, infinity, nan, finite) without fixing a precision. *)
Definition float : Type := spec_float.

(** A one-dimensional [numpy.ndarray], as the sequence of its elements. *)
Definition ndarray : Type := list float.

(** [ndarray.tolist()]: the elements, in order, each converted to the
    Python float of the same value. *)
Definition tolist (a : ndarray) : list float := map (fun x => x) a.

(** [class EmbedRequest(BaseModel)]. *)
Module EmbedRequest.
Record t : Type := Build
  { text : string;
    provider : Provider;
    model : string }.
End EmbedRequest.

(** The dict [embed] returns:
    [{'embedding': emb, 'provider': ..., 'model': model_name}]. *)
Module EmbedResponse.
Record t : Type := Build
  { embedding : list float;
    provider : string;
    model : string }.
End EmbedResponse.

(** ** Exceptions and outcomes *)

(** An exception raised inside a library: its class and [str(e)]. *)
Record Exception : Type :=
  { exc_class : string;
    exc_message : string }.

(** What leaves a Python function when it does not return. *)
Inductive Raised : Type :=
| HTTPException (status_code : Z) (detail : string)
| Uncaught (e : Exception).

Inductive Outcome (A : Type) : Type :=
| Returns (a : A)
| Raises (r : Raised).
Arguments Returns {A} a.
Arguments Raises {A} r.

(** ** The collaborators

    [sentence_transformers] is not part of the program.  Its behaviour may
    depend on a world of its own (model files, network, devices), which
    the two entry points thread through. *)
Class Collaborators : Type :=
  { World : Type;
    Encoder : Type;
    SentenceTransformer : string -> World -> (Exception + Encoder) * World;
    encode : Encoder -> string -> World -> (Exception + ndarray) * World }.

(** ** Program state *)

(** A [SentenceTransformer] object: its identity and the encoder it wraps. *)
Record EncoderObj `{Collaborators} : Type :=
  { obj_id : nat;
    obj_encoder : Encoder }.

(** [anthropic.Anthropic(api_key=...)]: construction only stores the key. *)
Record Anthropic : Type :=
  { api_key : string }.

(** The module-level names bound after [app]; [None] is "not bound yet". *)
Record Globals `{Collaborators} : Type :=
  { hf_model : option EncoderObj;
    claude_client : option Anthropic }.

(** The calls the program makes out of itself, in order.  The two remote
    endpoints are part of the vocabulary although the handler, as it
    stands, has both branches commented out. *)
Inductive Call : Type :=
| CallSentenceTransformer (model_name : string)
| CallEncode (obj : nat) (sentences : string)
| CallOpenAIEmbeddingCreate (input model_name : string)
| CallClaudeEmbeddingsCreate (input model_name : string).

Definition is_remote_call (c : Call) : bool :=
  match c with
  | CallOpenAIEmbeddingCreate _ _ => true
  | CallClaudeEmbeddingsCreate _ _ => true
  | _ => false
  end.

Definition is_construction (name : string) (c : Call) : bool :=
  match c with
  | CallSentenceTransformer n => String.eqb n name
  | _ => false
  end.

Record State `{Collaborators} : Type :=
  { globals : Globals;
    next_id : nat;
    world : World;
    calls : list Call }.

(** ** A state-and-exception monad for the handler *)

Section Gateway.
Context `{L : Collaborators}.

Definition M (A : Type) : Type := State -> Outcome A * State.

Definition ret {A} (a : A) : M A := fun st => (Returns a, st).

Definition raise {A} (r : Raised) : M A := fun st => (Raises r, st).

Definition bind {A B} (m : M A) (k : A -> M B) : M B :=
  fun st =>
    match m st with
    | (Returns a, st') => k a st'
    | (Raises r, st') => (Raises r, st')
    end.

Notation "x <- m ;; k" := (bind m (fun x => k))
  (at level 61, m at next level, right associativity).

Notation "m ;; k" := (bind m (fun _ => k))
  (at level 61, right associativity).

(** [SentenceTransformer(model_name)]: the call is recorded, the library
    runs, and on success a new object is allocated. *)
Definition new_SentenceTransformer (model_name : string) : M EncoderObj :=
  fun st =>
    let cs := calls st ++ [CallSentenceTransformer model_name] in
    match SentenceTransformer model_name (world st) with
    | (inl e, w) =>
        (Raises (Uncaught e),
         {| globals := globals st; next_id := next_id st;
            world := w; calls := cs |})
    | (inr enc, w) =>
        (Returns {| obj_id := next_id st; obj_encoder := enc |},
         {| globals := globals st; next_id := S (next_id st);
            world := w; calls := cs |})
    end.

(** [model.encode(sentences)] on a single string. *)
Definition call_encode (m : EncoderObj) (sentences : string) : M ndarray :=
  fun st =>
    let cs := calls st ++ [CallEncode (obj_id m) sentences] in
    match encode (obj_encoder m) sentences (world st) with
    | (inl e, w) =>
        (Raises (Uncaught e),
         {| globals := globals st; next_id := next_id st;
            world := w; calls := cs |})
    | (inr a, w) =>
        (Returns a,
         {| globals := globals st; next_id := next_id st;
            world := w; calls := cs |})
    end.

(** Assignment to a module-level name. *)
Definition set_globals (g : Globals) : M unit :=
  fun st =>
    (Returns tt,
     {| globals := g; next_id := next_id st;
        world := world st; calls := calls st |}).

Definition get_globals : M Globals := fun st => (Returns (globals st), st).

(** ** The module body *)

(** Truth value of a [str]: false exactly for the empty string. *)
Definition truthy (s : string) : bool := negb (String.eqb s "").

(** [a or b] on strings. *)
Definition py_or (a b : string) : string := if truthy a then a else b.

(** [os.getenv(key, default)]. *)
Fixpoint getenv (environ : list (string * string)) (key default : string)
  : string :=
  match environ with
  | [] => default
  | (k, v) :: rest => if String.eqb k key then v else getenv rest key default
  end.

(** The statements run at import, after [app = FastAPI()]. *)
Definition startup (environ : list (string * string)) : M unit :=
  m <- new_SentenceTransformer "all-MiniLM-L6-v2" ;;
  g <- get_globals ;;
  set_globals {| hf_model := Some m; claude_client := claude_client g |} ;;
  g <- get_globals ;;
  set_globals
    {| hf_model := hf_model g;
       claude_client :=
         Some {| api_key := getenv environ "CLAUDE_API_KEY" "" |} |}.

(** [def embed(req: EmbedRequest)]. *)
Definition embed (req : EmbedRequest.t) : M EmbedResponse.t :=
  if String.eqb (provider_value (EmbedRequest.provider req)) "huggingface"
  then
    let model_name := py_or (EmbedRequest.model req) "all-MiniLM-L6-v2" in
    model <- new_SentenceTransformer model_name ;;
    arr <- call_encode model (EmbedRequest.text req) ;;
    let emb := tolist arr in
    ret {| EmbedResponse.embedding := emb;
           EmbedResponse.provider := "huggingface";
           EmbedResponse.model := model_name |}
  else
    raise (HTTPException 400 "Unknown provider").

(** ** Request validation and the route

    [@app.post('/embed')] with a parameter of type [EmbedRequest]: the
    host validates the JSON body against the model before it calls
    [embed]; a body that fails is answered with a RequestValidationError
    (status 422) and the handler does not run. *)

(** A JSON body restricted to the three keys of the model, each absent or
    a JSON string. *)
Record Body : Type :=
  { body_text : option string;
    body_provider : option string;
    body_model : option string }.

Inductive ErrorType : Type := missing | literal_error.

Record FieldError : Type :=
  { err_loc : string;
    err_type : ErrorType }.

(** [text: str], no default: required, any string. *)
Definition validate_text (v : option string) : FieldError + string :=
  match v with
  | None => inl {| err_loc := "text"; err_type := missing |}
  | Some s => inr s
  end.

Definition literal_provider (s : string) : option Provider :=
  if String.eqb s "huggingface" then Some huggingface
  else if String.eqb s "openai" then Some openai
  else if String.eqb s "claude" then Some claude
  else None.

(** [provider: Literal[...] = 'huggingface']. *)
Definition validate_provider (v : option string) : FieldError + Provider :=
  match v with
  | None => inr huggingface
  | Some s =>
      match literal_provider s with
      | Some p => inr p
      | None => inl {| err_loc := "provider"; err_type := literal_error |}
      end
  end.

(** [model: str = '']. *)
Definition validate_model (v : option string) : FieldError + string :=
  match v with
  | None => inr ""
  | Some s => inr s
  end.

Definition errors_of {A} (r : FieldError + A) : list FieldError :=
  match r with
  | inl e => [e]
  | inr _ => []
  end.

(** Validation of the whole model: every field is checked and the errors
    of all fields are reported together. *)
Definition validate (b : Body) : list FieldError + EmbedRequest.t :=
  match validate_text (body_text b),
        validate_provider (body_provider b),
        validate_model (body_model b) with
  | inr t, inr p, inr m =>
      inr {| EmbedRequest.text := t;
             EmbedRequest.provider := p;
             EmbedRequest.model := m |}
  | rt, rp, rm => inl (errors_of rt ++ errors_of rp ++ errors_of rm)
  end.

(** What the route produced for a body. *)
Inductive Reply : Type :=
| RequestValidationError (errors : list FieldError)
| Handled (o : Outcome EmbedResponse.t).

Definition post_embed (b : Body) (st : State) : Reply * State :=
  match validate b with
  | inl errs => (RequestValidationError errs, st)
  | inr req =>
      match embed req st with
      | (o, st') => (Handled o, st')
      end
  end.

(** The status of an error reply: 422 for a validation error, the
    exception's own code for an [HTTPException], 500 for any other
    exception that escapes the handler.  ([None]: the handler returned.) *)
Definition error_status (r : Reply) : option Z :=
  match r with
  | RequestValidationError _ => Some 422%Z
  | Handled (Raises (HTTPException code _)) => Some code
  | Handled (Raises (Uncaught _)) => Some 500%Z
  | Handled (Returns _) => None
  end.

(** The string under ["detail"] in an error reply's JSON body.  Only an
    [HTTPException] has one: an escaped exception is answered with the
    fixed text "Internal Server Error", a validation error with a list. *)
Definition error_detail (r : Reply) : option string :=
  match r with
  | Handled (Raises (HTTPException _ d)) => Some d
  | _ => None
  end.

(** ** Vocabulary of the properties *)

(** The model name a request resolves to on the huggingface path. *)
Definition resolved_model (req : EmbedRequest.t) : string :=
  py_or (EmbedRequest.model req) "all-MiniLM-L6-v2".

(** The calls made since [before], when [after] extends it. *)
Definition new_calls (before after : State) : list Call :=
  skipn (length (calls before)) (calls after).

Definition constructions (name : string) (cs : list Call) : nat :=
  length (filter (is_construction name) cs).

(** Object identities are handed out in increasing order; a state is
    well formed when the encoder bound to [hf_model] was allocated
    before [next_id]. *)
Definition wf_state (st : State) : Prop :=
  match hf_model (globals st) with
  | Some m => obj_id m < next_id st
  | None => True
  end.

(** Every run of [embed] is one of the four. *)
Inductive embed_run (req : EmbedRequest.t) (st : State)
  : Outcome EmbedResponse.t -> State -> Prop :=
| run_rejected :
    EmbedRequest.provider req <> huggingface ->
    embed_run req st (Raises (HTTPException 400 "Unknown provider")) st
| run_constructor_raised e w :
    EmbedRequest.provider req = huggingface ->
    SentenceTransformer (resolved_model req) (world st) = (inl e, w) ->
    embed_run req st (Raises (Uncaught e))
      {| globals := globals st; next_id := next_id st; world := w;
         calls := calls st ++ [CallSentenceTransformer (resolved_model req)] |}
| run_encode_raised enc e w1 w2 :
    EmbedRequest.provider req = huggingface ->
    SentenceTransformer (resolved_model req) (world st) = (inr enc, w1) ->
    encode enc (EmbedRequest.text req) w1 = (inl e, w2) ->
    embed_run req st (Raises (Uncaught e))
      {| globals := globals st; next_id := S (next_id st); world := w2;
         calls := (calls st ++ [CallSentenceTransformer (resolved_model req)])
                    ++ [CallEncode (next_id st) (EmbedRequest.text req)] |}
| run_returned enc a w1 w2 :
    EmbedRequest.provider req = huggingface ->
    SentenceTransformer (resolved_model req) (world st) = (inr enc, w1) ->
    encode enc (EmbedRequest.text req) w1 = (inr a, w2) ->
    embed_run req st
      (Returns {| EmbedResponse.embedding := tolist a;
                  EmbedResponse.provider := "huggingface";
                  EmbedResponse.model := resolved_model req |})
      {| globals := globals st; next_id := S (next_id st); world := w2;
         calls := (calls st ++ [CallSentenceTransformer (resolved_model req)])
                    ++ [CallEncode (next_id st) (EmbedRequest.text req)] |}.


(** The library raises [e] while serving the huggingface path of [req]
    from [st]: in the constructor, or in [encode] after it. *)
Definition library_raises (req : EmbedRequest.t) (st : State) (e : Exception)
  : Prop :=
  fst (SentenceTransformer (resolved_model req) (world st)) = inl e \/
  exists enc w,
    SentenceTransformer (resolved_model req) (world st) = (inr enc, w) /\
    fst (encode enc (EmbedRequest.text req) w) = inl e.

(** Requests served one after another: the route applied to each body
    in turn, every call starting from the state the previous one left. *)
Fixpoint serve (bodies : list Body) (st : State) : list Reply * State :=
  match bodies with
  | [] => ([], st)
  | b :: rest =>
      match post_embed b st with
      | (r, st1) =>
          match serve rest st1 with
          | (rs, st2) => (r :: rs, st2)
          end
      end
  end.

(** The body passes validation and names, or defaults to, huggingface. *)
Definition reaches_huggingface (b : Body) : bool :=
  match validate b with
  | inr req =>
      String.eqb (provider_value (EmbedRequest.provider req)) "huggingface"
  | inl _ => false
  end.

End Gateway.

Definition is_constructor_call (c : Call) : bool :=
  match c with
  | CallSentenceTransformer _ => true
  | _ => false
  end.

(** ** The behaviour the provider table documents

    Used to state what the table promises, next to what [embed] does. *)

(** Default model per provider.  The two remote defaults occur in the
    source only inside the commented-out branches. *)
Definition documented_default (p : Provider) : string :=
  match p with
  | huggingface => "all-MiniLM-L6-v2"
  | openai => "text-embedding-ada-002"
  | claude => "claude-3-sonnet-20240229"
  end.

(** The remote call the table describes for a provider, if any. *)
Definition documented_remote_call (req : EmbedRequest.t) : option Call :=
  let name := py_or (EmbedRequest.model req)
                    (documented_default (EmbedRequest.provider req)) in
  match EmbedRequest.provider req with
  | huggingface => None
  | openai => Some (CallOpenAIEmbeddingCreate (EmbedRequest.text req) name)
  | claude => Some (CallClaudeEmbeddingsCreate (EmbedRequest.text req) name)
  end.

(** "Surfaced as a 500-equivalent error with the underlying message". *)
Definition provider_error (e : Exception) : Raised :=
  HTTPException 500 (exc_message e).

(** "Reject with a 400-equivalent error, detail Unknown provider". *)
Definition unknown_provider_error : Raised :=
  HTTPException 400 "Unknown provider".

(** What the table promises for a remote provider: the remote endpoint
    is called with the resolved model, and the call ends with the vector
    and both identifiers, or with a provider error. *)
Definition follows_remote_table `{Collaborators}
    (req : EmbedRequest.t) (st : State) : Prop :=
  (exists c, documented_remote_call req = Some c /\
             In c (new_calls st (snd (embed req st)))) /\
  match fst (embed req st) with
  | Returns resp =>
      EmbedResponse.provider resp = provider_value (EmbedRequest.provider req) /\
      EmbedResponse.model resp =
        py_or (EmbedRequest.model req)
              (documented_default (EmbedRequest.provider req))
  | Raises r => exists e, r = provider_error e
  end.

(** "No cross-request state": a call leaves the module-level objects and
    the library's world as they were, and its answer is the same from
    every state, so that it is a function of the request alone. *)
Definition function_of_request_alone `{Collaborators}
    (req : EmbedRequest.t) (st : State) : Prop :=
  globals (snd (embed req st)) = globals st /\
  world (snd (embed req st)) = world st /\
  forall st2, fst (embed req st2) = fst (embed req st).

(** ** A small implementation of the collaborators

    One model is installed; any other name makes the constructor raise.
    The world counts the calls the library has served. *)
Module Stub.

Definition installed (name : string) : bool :=
  String.eqb name "all-MiniLM-L6-v2".

Definition not_found (name : string) : Exception :=
  {| exc_class := "OSError";
     exc_message := (name ++ " is not a valid model identifier")%string |}.

Definition component (s : string) : float :=
  S754_finite false (Pos.of_succ_nat (String.length s)) (-8).

Definition construct (name : string) (w : nat) : (Exception + string) * nat :=
  (if installed name then inr name else inl (not_found name), S w).

Definition encode_text (enc : string) (s : string) (w : nat)
  : (Exception + ndarray) * nat :=
  (inr (repeat (component s) 384), S w).

#[export] Instance library : Collaborators :=
  {| World := nat;
     Encoder := string;
     SentenceTransformer := construct;
     encode := encode_text |}.

(** The interpreter before the module body has run. *)
Definition unloaded : State :=
  {| globals := {| hf_model := None; claude_client := None |};
     next_id := 0;
     world := 0;
     calls := [] |}.

(** The state the first request finds: the module body has run. *)
Definition booted : State :=
  snd (startup [("CLAUDE_API_KEY", "sk-test")] unloaded).

(** Requests and bodies the checks below run. *)
Definition hello : EmbedRequest.t :=
  {| EmbedRequest.text := "hello";
     EmbedRequest.provider := huggingface;
     EmbedRequest.model := "" |}.

Definition hello_unknown_model : EmbedRequest.t :=
  {| EmbedRequest.text := "hello";
     EmbedRequest.provider := huggingface;
     EmbedRequest.model := "no-such-model" |}.

Definition hello_openai : EmbedRequest.t :=
  {| EmbedRequest.text := "hello";
     EmbedRequest.provider := openai;
     EmbedRequest.model := "" |}.

Definition body_cohere : Body :=
  {| body_text := Some "hello";
     body_provider := Some "cohere";
     body_model := None |}.

Definition body_empty_text : Body :=
  {| body_text := Some "";
     body_provider := None;
     body_model := None |}.

Definition body_hello : Body :=
  {| body_text := Some "hello";
     body_provider := None;
     body_model := None |}.

End Stub.

(** ** An implementation that loads models as the real constructor does

    A model is loaded from the local cache when it is there; otherwise
    it is fetched from the hub, when the machine is online and the hub
    has it, and kept in the cache.  Encoding is deterministic. *)
Module Hub.

Record Machine : Type :=
  { online : bool;
    cache : list string }.

Definition on_hub (name : string) : bool :=
  String.eqb name "all-MiniLM-L6-v2" ||
  String.eqb name "paraphrase-MiniLM-L3-v2".

Definition cached (name : string) (w : Machine) : bool :=
  existsb (String.eqb name) (cache w).

Definition not_found (name : string) : Exception :=
  {| exc_class := "OSError";
     exc_message := (name ++ " is not a valid model identifier")%string |}.

Definition load (name : string) (w : Machine) : (Exception + string) * Machine :=
  if cached name w then (inr name, w)
  else if online w && on_hub name
       then (inr name, {| online := online w; cache := name :: cache w |})
       else (inl (not_found name), w).

Definition component (enc s : string) : float :=
  S754_finite false
    (Pos.of_succ_nat (String.length enc + String.length s)) (-8).

Definition encode_text (enc : string) (s : string) (w : Machine)
  : (Exception + ndarray) * Machine :=
  (inr (repeat (component enc s) 384), w).

#[export] Instance library : Collaborators :=
  {| World := Machine;
     Encoder := string;
     SentenceTransformer := load;
     encode := encode_text |}.

(** The module body has run on a machine that is online with an empty
    cache: the default model has been fetched. *)
Definition connected : State :=
  snd (startup []
         {| globals := {| hf_model := None; claude_client := None |};
            next_id := 0;
            world := {| online := true; cache := [] |};
            calls := [] |}).

(** The same program state on the same machine with the network down. *)
Definition disconnected : State :=
  {| globals := globals connected;
     next_id := next_id connected;
     world := {| online := false; cache := cache (world connected) |};
     calls := calls connected |}.

(** A request for a model that is on the hub and not yet in the cache. *)
Definition hello_small_model : EmbedRequest.t :=
  {| EmbedRequest.text := "hello";
     EmbedRequest.provider := huggingface;
     EmbedRequest.model := "paraphrase-MiniLM-L3-v2" |}.

End Hub.

(** * Properties *)

Section GatewayFacts.
Context `{L : Collaborators}.

(** ** Small facts about the pieces *)

Lemma provider_value_huggingface (p : Provider) :
  String.eqb (provider_value p) "huggingface" = true <-> p = huggingface.
Proof.
  destruct p; simpl; split; intro H; try reflexivity; discriminate H.
Qed.

Lemma py_or_spec (a b : string) :
  py_or a b = if String.eqb a "" then b else a.
Proof.
  unfold py_or, truthy. destruct (String.eqb a ""); reflexivity.
Qed.

Lemma py_or_nonempty (a b : string) : a <> "" -> py_or a b = a.
Proof.
  intro Ha. rewrite py_or_spec.
  destruct (String.eqb_spec a ""); [contradiction | reflexivity].
Qed.

Lemma tolist_id (a : ndarray) : tolist a = a.
Proof. unfold tolist. apply map_id. Qed.

Lemma literal_provider_value (p : Provider) :
  literal_provider (provider_value p) = Some p.
Proof. destruct p; reflexivity. Qed.

Lemma literal_provider_some (s : string) (p : Provider) :
  literal_provider s = Some p -> s = provider_value p.
Proof.
  unfold literal_provider.
  destruct (String.eqb_spec s "huggingface") as [-> | _];
    [intro H; injection H as <-; reflexivity |].
  destruct (String.eqb_spec s "openai") as [-> | _];
    [intro H; injection H as <-; reflexivity |].
  destruct (String.eqb_spec s "claude") as [-> | _];
    [intro H; injection H as <-; reflexivity | discriminate].
Qed.

Lemma literal_provider_none (s : string) :
  ~ In s provider_literals -> literal_provider s = None.
Proof.
  intro Hs. destruct (literal_provider s) as [p |] eqn:E; [| reflexivity].
  exfalso. apply Hs. apply literal_provider_some in E. subst s.
  destruct p; simpl; auto.
Qed.

Lemma literal_provider_in (s : string) :
  In s provider_literals -> exists p, literal_provider s = Some p.
Proof.
  simpl. intros [<- | [<- | [<- | []]]]; eexists; reflexivity.
Qed.

Lemma new_calls_same (st : State) : new_calls st st = [].
Proof. unfold new_calls. apply skipn_all. Qed.

Lemma new_calls_app (st st' : State) (cs : list Call) :
  calls st' = calls st ++ cs -> new_calls st st' = cs.
Proof.
  intro H. unfold new_calls. rewrite H.
  rewrite skipn_app, skipn_all, Nat.sub_diag. reflexivity.
Qed.

Lemma constructions_app (name : string) (cs ds : list Call) :
  constructions name (cs ++ ds) = constructions name cs + constructions name ds.
Proof.
  unfold constructions. rewrite filter_app, length_app. reflexivity.
Qed.

(** ** The four ways a call to [embed] can go *)

Lemma embed_not_huggingface (req : EmbedRequest.t) (st : State) :
  EmbedRequest.provider req <> huggingface ->
  embed req st = (Raises (HTTPException 400 "Unknown provider"), st).
Proof.
  intro Hp. unfold embed.
  destruct (String.eqb (provider_value (EmbedRequest.provider req))
                       "huggingface") eqn:E.
  - apply provider_value_huggingface in E. contradiction.
  - reflexivity.
Qed.

Lemma embed_constructor_raises
      (req : EmbedRequest.t) (st : State) (e : Exception) (w : World) :
  EmbedRequest.provider req = huggingface ->
  SentenceTransformer (resolved_model req) (world st) = (inl e, w) ->
  embed req st =
    (Raises (Uncaught e),
     {| globals := globals st; next_id := next_id st; world := w;
        calls := calls st ++ [CallSentenceTransformer (resolved_model req)] |}).
Proof.
  intros Hp Hc. unfold embed. rewrite Hp. simpl.
  unfold bind, new_SentenceTransformer. fold (resolved_model req).
  rewrite Hc. reflexivity.
Qed.

Lemma embed_encode_raises
      (req : EmbedRequest.t) (st : State) (enc : Encoder) (e : Exception)
      (w1 w2 : World) :
  EmbedRequest.provider req = huggingface ->
  SentenceTransformer (resolved_model req) (world st) = (inr enc, w1) ->
  encode enc (EmbedRequest.text req) w1 = (inl e, w2) ->
  embed req st =
    (Raises (Uncaught e),
     {| globals := globals st; next_id := S (next_id st); world := w2;
        calls := (calls st ++ [CallSentenceTransformer (resolved_model req)])
                   ++ [CallEncode (next_id st) (EmbedRequest.text req)] |}).
Proof.
  intros Hp Hc He. unfold embed. rewrite Hp. simpl.
  unfold bind, new_SentenceTransformer, call_encode.
  fold (resolved_model req). rewrite Hc. simpl. rewrite He. reflexivity.
Qed.

Lemma embed_returns
      (req : EmbedRequest.t) (st : State) (enc : Encoder) (a : ndarray)
      (w1 w2 : World) :
  EmbedRequest.provider req = huggingface ->
  SentenceTransformer (resolved_model req) (world st) = (inr enc, w1) ->
  encode enc (EmbedRequest.text req) w1 = (inr a, w2) ->
  embed req st =
    (Returns {| EmbedResponse.embedding := tolist a;
                EmbedResponse.provider := "huggingface";
                EmbedResponse.model := resolved_model req |},
     {| globals := globals st; next_id := S (next_id st); world := w2;
        calls := (calls st ++ [CallSentenceTransformer (resolved_model req)])
                   ++ [CallEncode (next_id st) (EmbedRequest.text req)] |}).
Proof.
  intros Hp Hc He. unfold embed. rewrite Hp. simpl.
  unfold bind, new_SentenceTransformer, call_encode, ret.
  fold (resolved_model req). rewrite Hc. simpl. rewrite He. reflexivity.
Qed.

Lemma embed_runs (req : EmbedRequest.t) (st : State) :
  embed_run req st (fst (embed req st)) (snd (embed req st)).
Proof.
  destruct (EmbedRequest.provider req) eqn:Hp.
  - destruct (SentenceTransformer (resolved_model req) (world st))
      as [[e | enc] w1] eqn:Hc.
    + rewrite (embed_constructor_raises req st e w1 Hp Hc). simpl.
      apply run_constructor_raised; assumption.
    + destruct (encode enc (EmbedRequest.text req) w1) as [[e | a] w2] eqn:He.
      * rewrite (embed_encode_raises req st enc e w1 w2 Hp Hc He). simpl.
        eapply run_encode_raised; eassumption.
      * rewrite (embed_returns req st enc a w1 w2 Hp Hc He). simpl.
        eapply run_returned; eassumption.
  - rewrite embed_not_huggingface by (rewrite Hp; discriminate).
    simpl. apply run_rejected. rewrite Hp. discriminate.
  - rewrite embed_not_huggingface by (rewrite Hp; discriminate).
    simpl. apply run_rejected. rewrite Hp. discriminate.
Qed.

Lemma embed_inv (req : EmbedRequest.t) (st st' : State)
      (o : Outcome EmbedResponse.t) :
  embed req st = (o, st') -> embed_run req st o st'.
Proof.
  intro H. pose proof (embed_runs req st) as R.
  rewrite H in R. exact R.
Qed.

Ltac run_embed req st :=
  let o := fresh "o" in
  let st' := fresh "st'" in
  let E := fresh "E" in
  destruct (embed req st) as [o st'] eqn:E;
  apply embed_inv in E;
  destruct E as [Rp | e w Rp Rc | enc e w1 w2 Rp Rc Re | enc a w1 w2 Rp Rc Re];
  simpl.

Lemma embed_globals (req : EmbedRequest.t) (st : State) :
  globals (snd (embed req st)) = globals st.
Proof. run_embed req st; reflexivity. Qed.

Lemma embed_calls (req : EmbedRequest.t) (st : State) :
  exists cs,
    calls (snd (embed req st)) = calls st ++ cs /\
    Forall (fun c => is_remote_call c = false) cs.
Proof.
  run_embed req st.
  - exists []. rewrite app_nil_r. auto.
  - eexists; split; [reflexivity | repeat constructor].
  - rewrite <- app_assoc. eexists; split; [reflexivity | repeat constructor].
  - rewrite <- app_assoc. eexists; split; [reflexivity | repeat constructor].
Qed.

Lemma embed_never_calls_remote (req : EmbedRequest.t) (st : State) :
  Forall (fun c => is_remote_call c = false)
         (new_calls st (snd (embed req st))).
Proof.
  destruct (embed_calls req st) as [cs [Hcs Hremote]].
  rewrite (new_calls_app _ _ cs Hcs). exact Hremote.
Qed.

Lemma remote_provider_not_huggingface (p : Provider) :
  p = openai \/ p = claude -> p <> huggingface.
Proof. intros [-> | ->]; discriminate. Qed.

(** ** The model field on the huggingface path *)

(** C1. For a request with provider huggingface, every response [embed]
    returns carries in its model field the request's model, verbatim, when
    that is non-empty, and all-MiniLM-L6-v2 when it is empty.  The name is
    not validated: [embed] never rejects such a request itself, and
    whenever the library accepts the name and encodes the text, [embed]
    returns with that name. *)
Theorem embed_huggingface_model_field (req : EmbedRequest.t) (st : State) :
  EmbedRequest.provider req = huggingface ->
  (forall resp st',
      embed req st = (Returns resp, st') ->
      EmbedResponse.model resp =
        (if String.eqb (EmbedRequest.model req) ""
         then "all-MiniLM-L6-v2" else EmbedRequest.model req) /\
      EmbedResponse.provider resp = "huggingface") /\
  (forall enc a w1 w2,
      SentenceTransformer
        (if String.eqb (EmbedRequest.model req) ""
         then "all-MiniLM-L6-v2" else EmbedRequest.model req)
        (world st) = (inr enc, w1) ->
      encode enc (EmbedRequest.text req) w1 = (inr a, w2) ->
      exists resp st', embed req st = (Returns resp, st')) /\
  (forall code d, fst (embed req st) <> Raises (HTTPException code d)).
Proof.
  intro Hp.
  assert (Hname : resolved_model req =
                  if String.eqb (EmbedRequest.model req) ""
                  then "all-MiniLM-L6-v2" else EmbedRequest.model req)
    by apply py_or_spec.
  rewrite <- Hname. split; [| split].
  - intros resp st' H. apply embed_inv in H.
    inversion H; subst; simpl. split; reflexivity.
  - intros enc a w1 w2 Hc He. do 2 eexists.
    apply (embed_returns req st enc a w1 w2 Hp Hc He).
  - intros code d. run_embed req st; try discriminate. contradiction.
Qed.

(** ** The remote providers *)

(** C10. For a request with provider openai or claude, [embed] takes the
    rejection branch: it raises the 400 error with detail Unknown provider,
    leaves the state as it was and makes no call at all, so no remote
    embedding endpoint is invoked. *)
Theorem embed_remote_providers_unknown (req : EmbedRequest.t) (st : State) :
  EmbedRequest.provider req = openai \/ EmbedRequest.provider req = claude ->
  embed req st = (Raises (HTTPException 400 "Unknown provider"), st) /\
  new_calls st (snd (embed req st)) = [] /\
  (Forall (fun c => is_remote_call c = false) (calls st) ->
   Forall (fun c => is_remote_call c = false) (calls (snd (embed req st)))).
Proof.
  intro Hp. apply remote_provider_not_huggingface in Hp.
  rewrite (embed_not_huggingface req st Hp). simpl.
  split; [reflexivity | split].
  - apply new_calls_same.
  - intro H. exact H.
Qed.

(** C3, as the code has it. For a request with provider openai or claude
    the table names a remote call, and [embed] does not make it: it
    resolves no model, returns no vector and raises no 500 error; whatever
    the text and the model, the request ends in the 400 error with detail
    Unknown provider. *)
Theorem embed_remote_providers_inert (req : EmbedRequest.t) (st : State) :
  EmbedRequest.provider req = openai \/ EmbedRequest.provider req = claude ->
  (forall c, documented_remote_call req = Some c ->
             ~ In c (new_calls st (snd (embed req st)))) /\
  (forall resp, fst (embed req st) <> Returns resp) /\
  (forall e, fst (embed req st) <> Raises (provider_error e)) /\
  error_status (Handled (fst (embed req st))) = Some 400%Z /\
  error_detail (Handled (fst (embed req st))) = Some "Unknown provider" /\
  (forall req',
      EmbedRequest.provider req' = EmbedRequest.provider req ->
      fst (embed req' st) = fst (embed req st)).
Proof.
  intro Hp. pose proof (remote_provider_not_huggingface _ Hp) as Hn.
  rewrite (embed_not_huggingface req st Hn). simpl.
  rewrite new_calls_same.
  repeat split; try discriminate.
  - intros c _ [].
  - intros req' Hreq'. rewrite embed_not_huggingface; [reflexivity |].
    rewrite Hreq'. exact Hn.
Qed.

(** ** Failures of the library *)

(** C4, as the code has it. On the huggingface path, when the constructor
    or [encode] raises, [embed] does not catch the exception: it leaves
    [embed] as it was raised, not as an [HTTPException] carrying its
    message.  The host answers an escaped exception with status 500 and
    no detail string. *)
Theorem embed_propagates_library_error
        (req : EmbedRequest.t) (st : State) (e : Exception) :
  EmbedRequest.provider req = huggingface ->
  library_raises req st e ->
  fst (embed req st) = Raises (Uncaught e) /\
  fst (embed req st) <> Raises (provider_error e) /\
  error_status (Handled (fst (embed req st))) = Some 500%Z /\
  error_detail (Handled (fst (embed req st))) = None.
Proof.
  intros Hp Hraise.
  assert (Hout : fst (embed req st) = Raises (Uncaught e)).
  { destruct Hraise as [Hc | [enc [w [Hc He]]]].
    - destruct (SentenceTransformer (resolved_model req) (world st))
        as [r w] eqn:Hst.
      simpl in Hc. subst r.
      rewrite (embed_constructor_raises req st e w Hp Hst). reflexivity.
    - destruct (encode enc (EmbedRequest.text req) w) as [r w2] eqn:Hen.
      simpl in He. subst r.
      rewrite (embed_encode_raises req st enc e w w2 Hp Hc Hen). reflexivity. }
  rewrite Hout. simpl. repeat split. discriminate.
Qed.

(** ** State *)

Lemma embed_outcome_world (req : EmbedRequest.t) (st1 st2 : State) :
  world st1 = world st2 -> fst (embed req st1) = fst (embed req st2).
Proof.
  intro Hw. run_embed req st1.
  - rewrite embed_not_huggingface by assumption. reflexivity.
  - rewrite Hw in *.
    erewrite embed_constructor_raises by eassumption. reflexivity.
  - rewrite Hw in *.
    erewrite embed_encode_raises by eassumption. reflexivity.
  - rewrite Hw in *.
    erewrite embed_returns by eassumption. reflexivity.
Qed.

Lemma embed_world_world (req : EmbedRequest.t) (st1 st2 : State) :
  world st1 = world st2 ->
  world (snd (embed req st1)) = world (snd (embed req st2)).
Proof.
  intro Hw. run_embed req st1.
  - rewrite embed_not_huggingface by assumption. exact Hw.
  - rewrite Hw in *.
    erewrite embed_constructor_raises by eassumption. reflexivity.
  - rewrite Hw in *.
    erewrite embed_encode_raises by eassumption. reflexivity.
  - rewrite Hw in *.
    erewrite embed_returns by eassumption. reflexivity.
Qed.

(** C8, as the code has it. [embed] keeps no state of its own between
    requests: no call changes the module-level objects, [hf_model] and
    [claude_client] are after the call what they were before it, however
    the call ends; and neither the answer nor what the call leaves of
    the library's world depends on them, on the objects allocated so far
    or on the calls made before.  Both are fixed by the request and the
    library's world. *)
Theorem embed_stateless (req : EmbedRequest.t) (st : State) :
  hf_model (globals (snd (embed req st))) = hf_model (globals st) /\
  claude_client (globals (snd (embed req st))) = claude_client (globals st) /\
  (forall st2,
      world st2 = world st ->
      fst (embed req st2) = fst (embed req st) /\
      world (snd (embed req st2)) = world (snd (embed req st))).
Proof.
  rewrite embed_globals. repeat split.
  - apply embed_outcome_world. assumption.
  - apply embed_world_world. assumption.
Qed.

(** ** Encoder instances *)

Lemma startup_binds_globals
      (environ : list (string * string)) (st st' : State) :
  startup environ st = (Returns tt, st') ->
  exists m,
    hf_model (globals st') = Some m /\
    obj_id m = next_id st /\
    claude_client (globals st') =
      Some {| api_key := getenv environ "CLAUDE_API_KEY" "" |} /\
    calls st' = calls st ++ [CallSentenceTransformer "all-MiniLM-L6-v2"] /\
    wf_state st'.
Proof.
  unfold startup, bind, new_SentenceTransformer, get_globals, set_globals.
  destruct (SentenceTransformer "all-MiniLM-L6-v2" (world st))
    as [[e | enc] w]; simpl; intro H; [discriminate |].
  injection H as <-. unfold wf_state. simpl.
  eexists. repeat split. lia.
Qed.

(** C9. On the huggingface path every call to [embed] starts by calling
    the [SentenceTransformer] constructor with the resolved model name,
    also when [hf_model] already holds an encoder of that name; [encode]
    is then called on the object just allocated, never on the one bound
    to [hf_model]; and nothing is kept: [hf_model] is unchanged, so the
    next request constructs again. *)
Theorem embed_constructs_new_encoder (req : EmbedRequest.t) (st : State) :
  EmbedRequest.provider req = huggingface ->
  wf_state st ->
  (exists rest,
      new_calls st (snd (embed req st)) =
        CallSentenceTransformer (resolved_model req) :: rest /\
      (rest = [] \/
       rest = [CallEncode (next_id st) (EmbedRequest.text req)])) /\
  (forall m s,
      hf_model (globals st) = Some m ->
      ~ In (CallEncode (obj_id m) s) (new_calls st (snd (embed req st)))) /\
  constructions (resolved_model req) (calls (snd (embed req st))) =
    S (constructions (resolved_model req) (calls st)) /\
  hf_model (globals (snd (embed req st))) = hf_model (globals st) /\
  wf_state (snd (embed req st)).
Proof.
  intros Hp Hwf.
  assert (Hnew : exists rest,
             calls (snd (embed req st)) =
               calls st ++ CallSentenceTransformer (resolved_model req) :: rest
             /\ (rest = [] \/
                 rest = [CallEncode (next_id st) (EmbedRequest.text req)])
             /\ next_id st <= next_id (snd (embed req st))).
  { run_embed req st.
    - contradiction.
    - exists []. auto.
    - rewrite <- app_assoc. eexists. split; [reflexivity | auto].
    - rewrite <- app_assoc. eexists. split; [reflexivity | auto]. }
  destruct Hnew as [rest [Hcalls [Hrest Hid]]].
  rewrite (new_calls_app _ _ _ Hcalls).
  split; [exists rest; auto | split; [| split; [| split]]].
  - intros m s Hm [Habs | Hin]; [discriminate |].
    unfold wf_state in Hwf. rewrite Hm in Hwf.
    destruct Hrest as [-> | ->]; [destruct Hin |].
    destruct Hin as [Heq | []]. injection Heq as Heq _. lia.
  - rewrite Hcalls, constructions_app. unfold constructions at 2. simpl.
    rewrite String.eqb_refl. simpl.
    destruct Hrest as [-> | ->]; simpl; lia.
  - rewrite embed_globals. reflexivity.
  - unfold wf_state in *. rewrite embed_globals.
    destruct (hf_model (globals st)); [lia | exact I].
Qed.

(** ** What the vector is *)


(** ** Validation *)

Lemma validate_missing_text (b : Body) :
  body_text b = None ->
  exists errs,
    validate b = inl errs /\
    In {| err_loc := "text"; err_type := missing |} errs.
Proof.
  intro Ht. unfold validate. rewrite Ht. simpl.
  destruct (validate_provider (body_provider b));
    destruct (validate_model (body_model b));
    eexists; (split; [reflexivity | simpl; auto]).
Qed.

Lemma validate_model_accepts (v : option string) :
  exists m, validate_model v = inr m.
Proof. destruct v; eexists; reflexivity. Qed.

(** C2, as the code has it. A body whose provider is none of
    huggingface, openai, claude fails validation of [EmbedRequest]: the
    reply is a validation error listing the provider field, its status is
    422, the handler does not run and the state is untouched.  It is not
    the 400 error with detail Unknown provider. *)
Theorem post_embed_unknown_provider (b : Body) (st : State) (p : string) :
  body_provider b = Some p ->
  ~ In p provider_literals ->
  exists errs,
    post_embed b st = (RequestValidationError errs, st) /\
    In {| err_loc := "provider"; err_type := literal_error |} errs /\
    error_status (fst (post_embed b st)) = Some 422%Z /\
    fst (post_embed b st) <> Handled (Raises unknown_provider_error).
Proof.
  intros Hb Hp. apply literal_provider_none in Hp.
  assert (Hv : exists errs,
             validate b = inl errs /\
             In {| err_loc := "provider"; err_type := literal_error |} errs).
  { unfold validate, validate_provider. rewrite Hb, Hp.
    destruct (validate_model_accepts (body_model b)) as [m ->].
    destruct (validate_text (body_text b));
      eexists; (split; [reflexivity | simpl; auto]). }
  destruct Hv as [errs [Hv Hin]].
  exists errs. unfold post_embed. rewrite Hv. simpl.
  repeat split; [exact Hin | discriminate].
Qed.

(** C5, as the code has it. [text] has to be a string and nothing more:
    a body whose text is the empty string, with the provider absent or
    one of the three literals, is a valid [EmbedRequest] with empty text,
    and the route runs [embed] on it. *)
Theorem post_embed_empty_text (b : Body) (st : State) :
  body_text b = Some "" ->
  (body_provider b = None \/
   exists p, body_provider b = Some p /\ In p provider_literals) ->
  exists req,
    validate b = inr req /\
    EmbedRequest.text req = "" /\
    post_embed b st = (Handled (fst (embed req st)), snd (embed req st)).
Proof.
  intros Ht Hp.
  assert (Hprov : exists q, validate_provider (body_provider b) = inr q).
  { destruct Hp as [-> | [p [-> Hin]]].
    - exists huggingface. reflexivity.
    - destruct (literal_provider_in p Hin) as [q Hq].
      exists q. simpl. rewrite Hq. reflexivity. }
  destruct Hprov as [q Hq].
  destruct (validate_model_accepts (body_model b)) as [m Hm].
  exists {| EmbedRequest.text := "";
            EmbedRequest.provider := q;
            EmbedRequest.model := m |}.
  assert (Hv : validate b =
               inr {| EmbedRequest.text := "";
                      EmbedRequest.provider := q;
                      EmbedRequest.model := m |}).
  { unfold validate. rewrite Ht, Hq, Hm. reflexivity. }
  split; [exact Hv | split; [reflexivity |]].
  unfold post_embed. rewrite Hv.
  destruct (embed _ st). reflexivity.
Qed.

End GatewayFacts.

(** * The route, the module body and sequences of requests *)

Section RouteFacts.
Context `{L : Collaborators}.

Ltac embed_cases req st :=
  let o := fresh "o" in
  let st' := fresh "st'" in
  let E := fresh "E" in
  destruct (embed req st) as [o st'] eqn:E;
  apply embed_inv in E;
  destruct E as [Rp | e w Rp Rc | enc e w1 w2 Rp Rc Re | enc a w1 w2 Rp Rc Re];
  simpl.

(** ** Validation of [EmbedRequest] *)

Lemma validate_inr_inv (b : Body) (req : EmbedRequest.t) :
  validate b = inr req ->
  validate_text (body_text b) = inr (EmbedRequest.text req) /\
  validate_provider (body_provider b) = inr (EmbedRequest.provider req) /\
  validate_model (body_model b) = inr (EmbedRequest.model req).
Proof.
  unfold validate.
  destruct (validate_text (body_text b)) as [et | t];
    destruct (validate_provider (body_provider b)) as [ep | p];
    destruct (validate_model (body_model b)) as [em | m];
    intro H; try discriminate H.
  injection H as <-. simpl. repeat split.
Qed.

Lemma validate_inr_intro (b : Body) (t m : string) (p : Provider) :
  validate_text (body_text b) = inr t ->
  validate_provider (body_provider b) = inr p ->
  validate_model (body_model b) = inr m ->
  validate b = inr {| EmbedRequest.text := t;
                      EmbedRequest.provider := p;
                      EmbedRequest.model := m |}.
Proof.
  intros Ht Hp Hm. unfold validate. rewrite Ht, Hp, Hm. reflexivity.
Qed.

Lemma validate_text_inr (v : option string) (t : string) :
  validate_text v = inr t <-> v = Some t.
Proof.
  destruct v as [s |]; simpl; split; intro H;
    try discriminate H; injection H as ->; reflexivity.
Qed.

Lemma validate_provider_inr (v : option string) (p : Provider) :
  validate_provider v = inr p <->
  (v = None /\ p = huggingface) \/ v = Some (provider_value p).
Proof.
  unfold validate_provider. split.
  - destruct v as [s |].
    + destruct (literal_provider s) as [q |] eqn:Hq; intro H;
        [| discriminate H].
      injection H as ->. right.
      rewrite (literal_provider_some s p Hq). reflexivity.
    + intro H. injection H as <-. left. split; reflexivity.
  - intros [[-> ->] | ->]; [reflexivity |].
    rewrite literal_provider_value. reflexivity.
Qed.

Lemma provider_value_literal (p : Provider) :
  In (provider_value p) provider_literals.
Proof. destruct p; simpl; auto. Qed.

(** X1. A body is a valid [EmbedRequest] exactly when it has a text and
    its provider is absent or one of the three literals; the text may be
    any string and the model field never decides. *)
Theorem validate_accepts_iff (b : Body) :
  (exists req, validate b = inr req) <->
  (exists t, body_text b = Some t) /\
  (body_provider b = None \/
   exists p, body_provider b = Some p /\ In p provider_literals).
Proof.
  split.
  - intros [req H]. apply validate_inr_inv in H.
    destruct H as [Ht [Hp _]]. split.
    + exists (EmbedRequest.text req). apply validate_text_inr. exact Ht.
    + apply validate_provider_inr in Hp.
      destruct Hp as [[Hnone _] | Hsome]; [left; exact Hnone | right].
      exists (provider_value (EmbedRequest.provider req)).
      split; [exact Hsome | apply provider_value_literal].
  - intros [[t Ht] Hp].
    destruct (validate_model_accepts (body_model b)) as [m Hm].
    assert (Hq : exists q, validate_provider (body_provider b) = inr q).
    { destruct Hp as [-> | [p [-> Hin]]].
      - exists huggingface. reflexivity.
      - destruct (literal_provider_in p Hin) as [q Hq].
        exists q. simpl. rewrite Hq. reflexivity. }
    destruct Hq as [q Hq]. eexists.
    apply validate_inr_intro; [| exact Hq | exact Hm].
    apply validate_text_inr. exact Ht.
Qed.

(** X2. Validation copies what the body holds and fills in the two
    defaults: the request's text is the body's, its provider is the
    body's or huggingface when the body has none, its model is the
    body's or the empty string when the body has none. *)
Theorem validate_keeps_fields (b : Body) (req : EmbedRequest.t) :
  validate b = inr req ->
  body_text b = Some (EmbedRequest.text req) /\
  provider_value (EmbedRequest.provider req) =
    match body_provider b with Some p => p | None => "huggingface" end /\
  EmbedRequest.model req =
    match body_model b with Some m => m | None => "" end.
Proof.
  intro H. apply validate_inr_inv in H. destruct H as [Ht [Hp Hm]].
  split; [apply validate_text_inr; exact Ht | split].
  - apply validate_provider_inr in Hp.
    destruct Hp as [[-> ->] | ->]; reflexivity.
  - destruct (body_model b) as [m |]; simpl in Hm;
      injection Hm as <-; reflexivity.
Qed.

(** ** What [embed] answers and when *)

Lemma embed_huggingface_no_http
      (req : EmbedRequest.t) (st : State) (code : Z) (d : string) :
  EmbedRequest.provider req = huggingface ->
  fst (embed req st) <> Raises (HTTPException code d).
Proof.
  intro Hp. embed_cases req st; try discriminate. contradiction.
Qed.


(** X9. Whatever [embed] returns comes from the encoder: a response is
    returned only for provider huggingface, names that provider, and its
    embedding is, entry for entry, the array [encode] gave for the
    request's text on the encoder constructed for the resolved model. *)
Theorem embed_response_sound
        (req : EmbedRequest.t) (st st' : State) (resp : EmbedResponse.t) :
  embed req st = (Returns resp, st') ->
  EmbedRequest.provider req = huggingface /\
  EmbedResponse.provider resp = "huggingface" /\
  exists enc w1,
    SentenceTransformer (resolved_model req) (world st) = (inr enc, w1) /\
    encode enc (EmbedRequest.text req) w1 =
      (inr (EmbedResponse.embedding resp), world st').
Proof.
  intro H. apply embed_inv in H.
  inversion H as [ | | | enc a w1 w2 Hp Hc He]; subst.
  split; [exact Hp | split; [reflexivity |]].
  exists enc, w1. simpl. rewrite tolist_id. split; assumption.
Qed.

(** X10. [embed] ends in an escaped exception, which the host answers
    with status 500, exactly when the request is on the huggingface path
    and the library raises, in the constructor or in [encode]. *)
Theorem embed_500_iff_library_raises (req : EmbedRequest.t) (st : State) :
  error_status (Handled (fst (embed req st))) = Some 500%Z <->
  EmbedRequest.provider req = huggingface /\
  exists e, library_raises req st e.
Proof.
  split.
  - embed_cases req st; intro H; try discriminate H.
    + split; [exact Rp |]. exists e. left. rewrite Rc. reflexivity.
    + split; [exact Rp |]. exists e. right. exists enc, w1.
      split; [exact Rc | rewrite Re; reflexivity].
  - intros [Hp [e [Hc | [enc [w [Hc He]]]]]].
    + destruct (SentenceTransformer (resolved_model req) (world st))
        as [r w] eqn:Hst.
      simpl in Hc. subst r.
      rewrite (embed_constructor_raises req st e w Hp Hst). reflexivity.
    + destruct (encode enc (EmbedRequest.text req) w) as [r w2] eqn:Hen.
      simpl in He. subst r.
      rewrite (embed_encode_raises req st enc e w w2 Hp Hc Hen). reflexivity.
Qed.

(** ** The route *)

Lemma post_embed_valid (b : Body) (req : EmbedRequest.t) (st : State) :
  validate b = inr req ->
  post_embed b st = (Handled (fst (embed req st)), snd (embed req st)).
Proof.
  intro Hv. unfold post_embed. rewrite Hv.
  destruct (embed req st). reflexivity.
Qed.

Lemma post_embed_invalid (b : Body) (errs : list FieldError) (st : State) :
  validate b = inl errs ->
  post_embed b st = (RequestValidationError errs, st).
Proof. intro Hv. unfold post_embed. rewrite Hv. reflexivity. Qed.

(** X3. The route answers with the 400 error Unknown provider exactly
    for the bodies that have a text and name openai or claude: never for
    a provider outside the three literals, never on the huggingface
    path. *)
Theorem post_embed_unknown_provider_iff (b : Body) (st : State) :
  fst (post_embed b st) = Handled (Raises (HTTPException 400 "Unknown provider"))
  <->
  (exists t, body_text b = Some t) /\
  (body_provider b = Some "openai" \/ body_provider b = Some "claude").
Proof.
  split.
  - destruct (validate b) as [errs | req] eqn:Hv.
    + rewrite (post_embed_invalid b errs st Hv). simpl. discriminate.
    + rewrite (post_embed_valid b req st Hv). simpl. intro H.
      injection H as H.
      pose proof (proj1 (validate_inr_inv b req Hv)) as Ht.
      apply validate_text_inr in Ht.
      split; [eexists; exact Ht |].
      destruct (EmbedRequest.provider req) eqn:Hq.
      * exfalso. exact (embed_huggingface_no_http req st _ _ Hq H).
      * left. apply validate_inr_inv in Hv. destruct Hv as [_ [Hv _]].
        apply validate_provider_inr in Hv. rewrite Hq in Hv.
        destruct Hv as [[_ Habs] | Hv]; [discriminate Habs | exact Hv].
      * right. apply validate_inr_inv in Hv. destruct Hv as [_ [Hv _]].
        apply validate_provider_inr in Hv. rewrite Hq in Hv.
        destruct Hv as [[_ Habs] | Hv]; [discriminate Habs | exact Hv].
  - intros [[t Ht] Hp].
    destruct (validate_model_accepts (body_model b)) as [m Hm].
    assert (Hq : exists q, validate_provider (body_provider b) = inr q /\
                           q <> huggingface).
    { destruct Hp as [-> | ->];
        [exists openai | exists claude]; split;
        try reflexivity; discriminate. }
    destruct Hq as [q [Hq Hne]].
    apply validate_text_inr in Ht.
    rewrite (post_embed_valid b _ st (validate_inr_intro b t m q Ht Hq Hm)).
    rewrite embed_not_huggingface by exact Hne. reflexivity.
Qed.

(** X4. A body without provider and without model is served on the
    huggingface path with the model all-MiniLM-L6-v2: when the library
    loads that model and encodes the text, the reply is the encoder's
    vector with provider huggingface and that model name. *)
Theorem post_embed_text_only
        (b : Body) (st : State) (t : string) (enc : Encoder) (a : ndarray)
        (w1 w2 : World) :
  body_text b = Some t ->
  body_provider b = None ->
  body_model b = None ->
  SentenceTransformer "all-MiniLM-L6-v2" (world st) = (inr enc, w1) ->
  encode enc t w1 = (inr a, w2) ->
  fst (post_embed b st) =
    Handled (Returns {| EmbedResponse.embedding := a;
                        EmbedResponse.provider := "huggingface";
                        EmbedResponse.model := "all-MiniLM-L6-v2" |}).
Proof.
  intros Ht Hp Hm Hc He.
  assert (Hv : validate b = inr {| EmbedRequest.text := t;
                                   EmbedRequest.provider := huggingface;
                                   EmbedRequest.model := "" |}).
  { apply validate_inr_intro.
    - rewrite Ht. reflexivity.
    - rewrite Hp. reflexivity.
    - rewrite Hm. reflexivity. }
  rewrite (post_embed_valid b _ st Hv). simpl.
  rewrite (embed_returns
             {| EmbedRequest.text := t;
                EmbedRequest.provider := huggingface;
                EmbedRequest.model := "" |}
             st enc a w1 w2 eq_refl Hc He).
  simpl. rewrite tolist_id. reflexivity.
Qed.


(** ** Requests in sequence *)

Lemma post_embed_step (b : Body) (st : State) :
  globals (snd (post_embed b st)) = globals st /\
  exists cs,
    calls (snd (post_embed b st)) = calls st ++ cs /\
    Forall (fun c => is_remote_call c = false) cs /\
    length (filter is_constructor_call cs) =
      (if reaches_huggingface b then 1 else 0).
Proof.
  unfold reaches_huggingface.
  destruct (validate b) as [errs | req] eqn:Hv.
  - rewrite (post_embed_invalid b errs st Hv). simpl.
    split; [reflexivity |]. exists []. rewrite app_nil_r. auto.
  - rewrite (post_embed_valid b req st Hv). simpl.
    split; [apply embed_globals |].
    embed_cases req st.
    + exists []. rewrite app_nil_r. repeat split; [constructor |].
      destruct (String.eqb_spec
                  (provider_value (EmbedRequest.provider req)) "huggingface")
        as [Heq | _]; [| reflexivity].
      exfalso. apply Rp. apply provider_value_huggingface.
      rewrite Heq. reflexivity.
    + rewrite Rp. simpl. eexists. repeat split. repeat constructor.
    + rewrite Rp, <- app_assoc. simpl. eexists. repeat split.
      repeat constructor.
    + rewrite Rp, <- app_assoc. simpl. eexists. repeat split.
      repeat constructor.
Qed.

(** X6. However many requests are served one after another, and however
    each ends: there is one reply per body, the module-level objects end
    as they began, no remote endpoint is called, and the constructor is
    called once for every body that reaches the huggingface path, so
    nothing is reused from one request to the next. *)
Theorem serve_constructs_per_request (bodies : list Body) (st : State) :
  length (fst (serve bodies st)) = length bodies /\
  globals (snd (serve bodies st)) = globals st /\
  exists cs,
    calls (snd (serve bodies st)) = calls st ++ cs /\
    Forall (fun c => is_remote_call c = false) cs /\
    length (filter is_constructor_call cs) =
      length (filter reaches_huggingface bodies).
Proof.
  revert st. induction bodies as [| b rest IH]; intro st; simpl.
  - repeat split. exists []. rewrite app_nil_r. auto.
  - destruct (post_embed_step b st) as [Hg [cs1 [Hc1 [Hr1 Hn1]]]].
    destruct (post_embed b st) as [r st1]. simpl in Hg, Hc1.
    destruct (IH st1) as [Hlen [Hg2 [cs2 [Hc2 [Hr2 Hn2]]]]].
    destruct (serve rest st1) as [rs st2]. simpl in *.
    split; [rewrite Hlen; reflexivity | split; [congruence |]].
    exists (cs1 ++ cs2). split; [| split].
    + rewrite Hc2, Hc1, app_assoc. reflexivity.
    + apply Forall_app. split; assumption.
    + rewrite filter_app, length_app, Hn1, Hn2.
      destruct (reaches_huggingface b); reflexivity.
Qed.

(** ** The module body *)

Lemma getenv_absent (environ : list (string * string)) (key default : string) :
  (forall v, ~ In (key, v) environ) ->
  getenv environ key default = default.
Proof.
  induction environ as [| [k v] rest IH]; intro Habs; simpl;
    [reflexivity |].
  destruct (String.eqb_spec k key) as [-> | _].
  - exfalso. apply (Habs v). left. reflexivity.
  - apply IH. intros v' Hin. apply (Habs v'). right. exact Hin.
Qed.

(** X7. The module body succeeds exactly when all-MiniLM-L6-v2 loads,
    whatever the environment holds.  When loading raises, the exception
    leaves the import and no module-level object is bound: the globals
    are as before, so [claude_client] is never built. *)
Theorem startup_succeeds_iff
        (environ : list (string * string)) (st : State) :
  (fst (startup environ st) = Returns tt <->
   exists enc w,
     SentenceTransformer "all-MiniLM-L6-v2" (world st) = (inr enc, w)) /\
  (forall e w,
      SentenceTransformer "all-MiniLM-L6-v2" (world st) = (inl e, w) ->
      fst (startup environ st) = Raises (Uncaught e) /\
      globals (snd (startup environ st)) = globals st).
Proof.
  unfold startup, bind, new_SentenceTransformer, get_globals, set_globals.
  destruct (SentenceTransformer "all-MiniLM-L6-v2" (world st))
    as [[e | enc] w]; simpl; split.
  - split; [discriminate | intros [enc [w' H]]; discriminate H].
  - intros e' w' H. injection H as <- <-. split; reflexivity.
  - split; [intros _; exists enc, w; reflexivity | reflexivity].
  - intros e' w' H. discriminate H.
Qed.

(** X8. A missing CLAUDE_API_KEY does not stop the module body: when the
    environment has no such variable and the model loads, the body
    returns and [claude_client] is a client built with the empty key. *)
Theorem startup_without_api_key
        (environ : list (string * string)) (st : State)
        (enc : Encoder) (w : World) :
  (forall v, ~ In ("CLAUDE_API_KEY", v) environ) ->
  SentenceTransformer "all-MiniLM-L6-v2" (world st) = (inr enc, w) ->
  fst (startup environ st) = Returns tt /\
  claude_client (globals (snd (startup environ st))) =
    Some {| api_key := "" |} /\
  hf_model (globals (snd (startup environ st))) =
    Some {| obj_id := next_id st; obj_encoder := enc |}.
Proof.
  intros Habs Hc.
  unfold startup, bind, new_SentenceTransformer, get_globals, set_globals.
  rewrite Hc. simpl. rewrite (getenv_absent _ _ _ Habs).
  repeat split.
Qed.

End RouteFacts.

(** * The properties on the small implementation *)

Import Stub.

Lemma booted_wf : wf_state booted.
Proof. unfold wf_state. simpl. lia. Qed.


(** ** Inputs on which the documented behaviour fails *)

(** C2: a body with provider cohere is answered by validation, with
    status 422, and not with the 400 error. *)
Lemma unknown_provider_not_400 :
  fst (post_embed body_cohere booted) =
    RequestValidationError
      [{| err_loc := "provider"; err_type := literal_error |}] /\
  error_status (fst (post_embed body_cohere booted)) = Some 422%Z /\
  fst (post_embed body_cohere booted) <> Handled (Raises unknown_provider_error).
Proof.
  repeat split. discriminate.
Qed.

(** C3: the request hello with provider openai calls no remote endpoint
    and ends in the 400 error. *)
Lemma remote_table_not_followed :
  fst (embed hello_openai booted) = Raises unknown_provider_error /\
  new_calls booted (snd (embed hello_openai booted)) = [] /\
  ~ follows_remote_table hello_openai booted.
Proof.
  split; [reflexivity | split; [reflexivity |]].
  intros [[c [_ Hin]] _]. exact Hin.
Qed.

(** C4: a model name the library does not know makes the constructor
    raise; the exception leaves [embed] uncaught, not as a 500 error
    carrying its message. *)
Lemma library_error_not_wrapped :
  library_raises hello_unknown_model booted (not_found "no-such-model") /\
  fst (embed hello_unknown_model booted) =
    Raises (Uncaught (not_found "no-such-model")) /\
  fst (embed hello_unknown_model booted) <>
    Raises (provider_error (not_found "no-such-model")).
Proof.
  split; [left; reflexivity | split; [reflexivity | discriminate]].
Qed.

(** C5: the body with empty text passes validation and reaches the
    encoder. *)
Lemma empty_text_not_rejected :
  validate body_empty_text =
    inr {| EmbedRequest.text := "";
           EmbedRequest.provider := huggingface;
           EmbedRequest.model := "" |} /\
  ~ (exists errs, validate body_empty_text = inl errs) /\
  In (CallEncode 1 "") (calls (snd (post_embed body_empty_text booted))).
Proof.
  split; [reflexivity | split].
  - intros [errs H]. discriminate H.
  - vm_compute. auto.
Qed.

(** C8: a request for a model that is not in the cache.  Served online
    it returns a vector and leaves the model in the library's cache;
    served from the same program state with the network down it raises.
    The call changed state that outlives the request, and the answer is
    not fixed by the request. *)
Lemma embed_not_function_of_request_alone :
  globals Hub.disconnected = globals Hub.connected /\
  (exists resp,
      fst (embed Hub.hello_small_model Hub.connected) = Returns resp) /\
  fst (embed Hub.hello_small_model Hub.disconnected) =
    Raises (Uncaught (Hub.not_found "paraphrase-MiniLM-L3-v2")) /\
  Hub.cache (world (snd (embed Hub.hello_small_model Hub.connected))) =
    "paraphrase-MiniLM-L3-v2" :: Hub.cache (world Hub.connected) /\
  ~ function_of_request_alone Hub.hello_small_model Hub.connected.
Proof.
  split; [reflexivity | split; [eexists; reflexivity | split; [reflexivity |]]].
  split; [reflexivity |].
  intros [_ [Hworld _]]. vm_compute in Hworld. discriminate Hworld.
Qed.

(** ** The theorems at concrete inputs *)

Lemma embed_huggingface_model_field_witness :
  EmbedRequest.provider hello = huggingface /\
  exists resp,
    fst (embed hello booted) = Returns resp /\
    EmbedResponse.model resp = "all-MiniLM-L6-v2".
Proof.
  split; [reflexivity |].
  destruct (embed_huggingface_model_field hello booted eq_refl)
    as [Hmodel [Hreturns _]].
  destruct (Hreturns "all-MiniLM-L6-v2" (repeat (component "hello") 384) 2 3
                     eq_refl eq_refl) as [resp [st' E]].
  exists resp. rewrite E. split; [reflexivity |].
  exact (proj1 (Hmodel resp st' E)).
Defined.

Lemma post_embed_unknown_provider_witness :
  body_provider body_cohere = Some "cohere" /\
  ~ In "cohere" provider_literals /\
  exists errs, post_embed body_cohere booted = (RequestValidationError errs, booted).
Proof.
  assert (Hout : ~ In "cohere" provider_literals).
  { simpl. intros [H | [H | [H | []]]]; discriminate H. }
  split; [reflexivity | split; [exact Hout |]].
  destruct (post_embed_unknown_provider body_cohere booted "cohere" eq_refl Hout)
    as [errs [H _]].
  exists errs. exact H.
Defined.

Lemma embed_remote_providers_inert_witness :
  EmbedRequest.provider hello_openai = openai /\
  error_detail (Handled (fst (embed hello_openai booted))) =
    Some "Unknown provider".
Proof.
  split; [reflexivity |].
  destruct (embed_remote_providers_inert hello_openai booted (or_introl eq_refl))
    as [_ [_ [_ [_ [H _]]]]].
  exact H.
Defined.

Lemma embed_propagates_library_error_witness :
  library_raises hello_unknown_model booted (not_found "no-such-model") /\
  fst (embed hello_unknown_model booted) =
    Raises (Uncaught (not_found "no-such-model")).
Proof.
  assert (Hraise : library_raises hello_unknown_model booted
                                  (not_found "no-such-model"))
    by (left; reflexivity).
  split; [exact Hraise |].
  exact (proj1 (embed_propagates_library_error
                  hello_unknown_model booted (not_found "no-such-model")
                  eq_refl Hraise)).
Defined.

Lemma post_embed_empty_text_witness :
  body_text body_empty_text = Some "" /\
  exists req,
    validate body_empty_text = inr req /\ EmbedRequest.text req = "".
Proof.
  split; [reflexivity |].
  destruct (post_embed_empty_text body_empty_text booted eq_refl
                                  (or_introl eq_refl)) as [req [Hv [Ht _]]].
  exists req. split; [exact Hv | exact Ht].
Defined.


Lemma embed_constructs_new_encoder_witness :
  wf_state booted /\
  hf_model (globals booted) =
    Some {| obj_id := 0; obj_encoder := "all-MiniLM-L6-v2" |} /\
  constructions "all-MiniLM-L6-v2" (calls (snd (embed hello booted))) =
    S (constructions "all-MiniLM-L6-v2" (calls booted)).
Proof.
  split; [exact booted_wf | split; [reflexivity |]].
  destruct (embed_constructs_new_encoder hello booted eq_refl booted_wf)
    as [_ [_ [H _]]].
  exact H.
Defined.

Lemma embed_remote_providers_unknown_witness :
  EmbedRequest.provider hello_openai = openai /\
  embed hello_openai booted =
    (Raises (HTTPException 400 "Unknown provider"), booted).
Proof.
  split; [reflexivity |].
  exact (proj1 (embed_remote_providers_unknown hello_openai booted
                  (or_introl eq_refl))).
Defined.

Lemma validate_keeps_fields_witness :
  validate body_hello = inr hello /\
  body_text body_hello = Some "hello" /\
  provider_value (EmbedRequest.provider hello) = "huggingface" /\
  EmbedRequest.model hello = "".
Proof.
  split; [reflexivity |].
  exact (validate_keeps_fields body_hello hello eq_refl).
Defined.

Lemma post_embed_text_only_witness :
  fst (post_embed body_hello booted) =
    Handled (Returns {| EmbedResponse.embedding := repeat (component "hello") 384;
                        EmbedResponse.provider := "huggingface";
                        EmbedResponse.model := "all-MiniLM-L6-v2" |}).
Proof.
  exact (post_embed_text_only body_hello booted "hello" "all-MiniLM-L6-v2"
           (repeat (component "hello") 384) 2 3
           eq_refl eq_refl eq_refl eq_refl eq_refl).
Defined.

Lemma startup_without_api_key_witness :
  fst (startup [("HOME", "/root")] unloaded) = Returns tt /\
  claude_client (globals (snd (startup [("HOME", "/root")] unloaded))) =
    Some {| api_key := "" |}.
Proof.
  assert (Habs : forall v, ~ In ("CLAUDE_API_KEY", v) [("HOME", "/root")]).
  { intros v [H | []]. discriminate H. }
  destruct (startup_without_api_key [("HOME", "/root")] unloaded
              "all-MiniLM-L6-v2" 1 Habs eq_refl) as [Hret [Hkey _]].
  split; [exact Hret | exact Hkey].
Defined.

Lemma embed_response_sound_witness :
  fst (embed hello booted) =
    Returns {| EmbedResponse.embedding := repeat (component "hello") 384;
               EmbedResponse.provider := "huggingface";
               EmbedResponse.model := "all-MiniLM-L6-v2" |} /\
  exists enc w1,
    SentenceTransformer (resolved_model hello) (world booted) = (inr enc, w1) /\
    encode enc "hello" w1 =
      (inr (repeat (component "hello") 384), world (snd (embed hello booted))).
Proof.
  split; [reflexivity |].
  destruct (embed_response_sound hello booted (snd (embed hello booted))
              {| EmbedResponse.embedding := repeat (component "hello") 384;
                 EmbedResponse.provider := "huggingface";
                 EmbedResponse.model := "all-MiniLM-L6-v2" |}
              eq_refl) as [_ [_ H]].
  exact H.
Defined.
